(** * plmdcaBackend: the objective-function adapter of pydca's plmDCA backend

    A shallow embedding of [pydca/plmdca/plmdcaBackend.cpp]: the entry point
    [plmdcaBackend], its local class [ObjectiveFunction] (constructor,
    [getFieldsAndCouplings], [run], the two callbacks) and
    [freeFieldsAndCouplings].

    The Gradient Engine ([PlmDCA], declared in [include/plmdca.h]) and the
    L-BFGS library ([lbfgs_malloc], [lbfgs_parameter_init], [lbfgs]) are not
    part of this translation unit; they enter as the interface [Externals]. *)

From Stdlib Require Import ZArith Lia SpecFloat.
From stdpp Require Import base gmap list strings.

Local Open Scope Z_scope.

(** ** Machine integers *)

Module Int.

(** [unsigned int] arithmetic is arithmetic modulo 2^32. *)
Definition modulus : Z := 2 ^ 32.
Definition max_signed : Z := 2 ^ 31 - 1.

Definition wrap (z : Z) : Z := z mod modulus.

Definition umul (a b : Z) : Z := wrap (a * b).
Definition uadd (a b : Z) : Z := wrap (a + b).
Definition usub (a b : Z) : Z := wrap (a - b).
Definition udiv (a b : Z) : Z := a / b.

(** Conversion of an [unsigned int] to [int] (two's complement). *)
Definition to_int (u : Z) : Z :=
  if wrap u <=? max_signed then wrap u else wrap u - modulus.

(** Value ranges of the parameter types of [plmdcaBackend]. *)
Definition is_uint (z : Z) : Prop := 0 <= z < modulus.
Definition is_ushort (z : Z) : Prop := 0 <= z < 2 ^ 16.

End Int.

(** ** The parameter count (line 47)

    [seqs_len] is [unsigned int], so [num_site_states] (an [unsigned short],
    promoted to [int]) is converted to [unsigned int] in every product: the
    whole right-hand side is evaluated in [unsigned int], left to right, the
    division by two last in its term, and the sum is then converted to the
    [const int] that is declared. *)
Definition total_num_params (seqs_len num_site_states : Z) : Z :=
  Int.to_int
    (Int.uadd
       (Int.umul seqs_len num_site_states)
       (Int.udiv
          (Int.umul
             (Int.umul
                (Int.umul seqs_len (Int.usub seqs_len 1))
                num_site_states)
             num_site_states)
          2)).

(** The count the documentation gives, over the integers:
    [N = L*Q + L*(L-1)/2 * Q^2]. *)
Definition param_count (L Q : Z) : Z := L * Q + L * (L - 1) / 2 * Q ^ 2.

(** ** Data *)

(** A non-null [float*] is the address of a live block; [NULL] is [None]. *)
Definition addr : Type := positive.
Definition ptr : Type := option addr.
Definition NULL : ptr := None.

(** Decimal floating literals are kept as written: [1E-3] is
    [Decimal 1 (-3)]. *)
Record decimal := Decimal { mantissa : Z; exponent10 : Z }.

Inductive stream := stdout | stderr.

(** One call of [printf], [fprintf] or [operator<<]: the stream, the format
    string as the source spells it, and the values formatted. *)
Inductive fmt_arg (float : Type) :=
| ArgInt (z : Z)
| ArgFloat (f : float).
Arguments ArgInt {float} z.
Arguments ArgFloat {float} f.

Record output_event (float : Type) := Out {
  out_stream : stream;
  out_format : string;
  out_args : list (fmt_arg float)
}.
Arguments Out {float} _ _ _.
Arguments out_stream {float} _.
Arguments out_format {float} _.
Arguments out_args {float} _.

Inductive mem_event :=
| Allocated (p : addr)
| Released (p : addr).

(** The fields of [lbfgs_parameter_t] that [run] assigns; the remaining ones
    keep whatever [lbfgs_parameter_init] put there. *)
Record lbfgs_parameter_t (float rest : Type) := Param {
  m : Z;
  epsilon : float;
  max_iterations : Z;
  max_linesearch : Z;
  ftol : float;
  unassigned : rest
}.
Arguments Param {float rest} _ _ _ _ _ _.
Arguments m {float rest} _.
Arguments epsilon {float rest} _.
Arguments max_iterations {float rest} _.
Arguments max_linesearch {float rest} _.
Arguments ftol {float rest} _.
Arguments unassigned {float rest} _.

Section ParamAssign.
Context {float rest : Type}.
Implicit Type p : lbfgs_parameter_t float rest.

Definition set_m (v : Z) p :=
  Param v (epsilon p) (max_iterations p) (max_linesearch p) (ftol p) (unassigned p).
Definition set_epsilon (v : float) p :=
  Param (m p) v (max_iterations p) (max_linesearch p) (ftol p) (unassigned p).
Definition set_max_iterations (v : Z) p :=
  Param (m p) (epsilon p) v (max_linesearch p) (ftol p) (unassigned p).
Definition set_max_linesearch (v : Z) p :=
  Param (m p) (epsilon p) (max_iterations p) v (ftol p) (unassigned p).
Definition set_ftol (v : float) p :=
  Param (m p) (epsilon p) (max_iterations p) (max_linesearch p) v (unassigned p).
End ParamAssign.

(** [lbfgs] is handed two function pointers and calls back through them.
    Its behaviour on given arguments is the tree of the calls it makes:
    each node is one callback with the arguments the library passes, and the
    branches are indexed by what the callback gives back; a leaf is the
    return of [lbfgs], with its status code, the values it leaves in [x]
    and the value it leaves in [*ptr_fx]. The tree is well founded: a call
    of [lbfgs] that returns makes finitely many callbacks. The library is
    taken to write [*ptr_fx] before it returns; a return that leaves the
    local [fx] of [run] unwritten is not represented. *)
Inductive driver (float : Type) :=
| Finish (ret : Z) (x : list float) (fx : float)
| Evaluate (x g : list float) (n : Z) (step : float)
    (resume : float -> list float -> driver float)
| Progress (x g : list float) (fx xnorm gnorm step : float) (n k ls : Z)
    (resume : Z -> driver float).
Arguments Finish {float} _ _ _.
Arguments Evaluate {float} _ _ _ _ _.
Arguments Progress {float} _ _ _ _ _ _ _ _ _ _.

(** ** What this translation unit links against *)

Class Externals := {
  (** the C type [float] *)
  float : Type;
  (** conversion of a literal to [float] *)
  float_of_literal : decimal -> float;

  (** [true] iff the build defines [_OPENMP] *)
  openmp : bool;

  (** the class [PlmDCA] of [include/plmdca.h]: its constructor, and the two
      member functions the adapter calls. [initFieldsAndCouplings e old]
      lists the values written to [x[0]], [x[1]], ... of a buffer holding
      [old]; [gradient e x g] either throws or gives the objective value and
      the new contents of [g]. *)
  PlmDCA : Type;
  engine_error : Type;
  PlmDCA_new : string -> Z -> Z -> Z -> float -> float -> float -> Z -> PlmDCA;
  initFieldsAndCouplings : PlmDCA -> list float -> list float;
  gradient : PlmDCA -> list float -> list float ->
             engine_error + (float * list float);

  (** the L-BFGS library *)
  param_rest : Type;
  lbfgs_parameter_init : lbfgs_parameter_t float param_rest;
  lbfgs : Z -> list float -> lbfgs_parameter_t float param_rest -> driver float;

  (** Modelled from the spec: [lbfgs_malloc] (L-BFGS library, not in this
      translation unit) "allocates the Parameter Vector (fails with an
      allocation error if the host cannot provide memory)": on the live
      blocks [h] it either fails or gives a block of [n] floats at an
      address that was not live. *)
  lbfgs_malloc : Z -> gmap addr (list float) -> option (addr * list float);
  lbfgs_malloc_length : forall n h p b,
    lbfgs_malloc n h = Some (p, b) -> Z.of_nat (length b) = n;
  lbfgs_malloc_fresh : forall n h p b,
    lbfgs_malloc n h = Some (p, b) -> h !! p = None
}.

(** ** Process state and effects *)

Section Backend.
Context `{Ext : Externals}.

(** The function-local statics of [plmdcaBackend] (lines 48-50). *)
Record statics := Statics {
  plmdca_inst : PlmDCA;
  num_iterations : Z;
  logging : bool
}.

Record world := World {
  heap : gmap addr (list float);      (* live blocks of floats *)
  static_vars : option statics;       (* [None] until first initialised *)
  output : list (output_event float); (* what was written, oldest first *)
  mem_log : list mem_event            (* allocations and releases *)
}.

Inductive exn :=
| runtime_error (what : string)       (* [std::runtime_error] *)
| engine_exn (e : engine_error).      (* thrown inside the engine *)

(** A computation ends by returning, by throwing, or by undefined
    behaviour (a write past the end of a block, a release of a block that
    is not live). *)
Inductive outcome (A : Type) :=
| Returns (a : A) (w : world)
| Throws (e : exn) (w : world)
| Undefined.
Arguments Returns {A} a w.
Arguments Throws {A} e w.
Arguments Undefined {A}.

Definition M (A : Type) : Type := world -> outcome A.

Definition ret {A} (a : A) : M A := fun w => Returns a w.

Definition bind {A B} (c : M A) (k : A -> M B) : M B :=
  fun w =>
    match c w with
    | Returns a w' => k a w'
    | Throws e w' => Throws e w'
    | Undefined => Undefined
    end.

Definition throw {A} (e : exn) : M A := fun w => Throws e w.

Local Notation "'do' x <- c ; k" := (bind c (fun x => k))
  (at level 10, x name, c at level 100, k at level 200, only parsing).

(** [if (b) { c }] *)
Definition when (b : bool) (c : M unit) : M unit :=
  if b then c else ret tt.

Definition set_heap (h : gmap addr (list float)) (w : world) : world :=
  World h (static_vars w) (output w) (mem_log w).

Definition emit (e : output_event float) (w : world) : world :=
  World (heap w) (static_vars w) (output w ++ [e]) (mem_log w).

Definition log_mem (e : mem_event) (w : world) : world :=
  World (heap w) (static_vars w) (output w) (mem_log w ++ [e]).

Definition set_statics (s : statics) (w : world) : world :=
  World (heap w) (Some s) (output w) (mem_log w).

Definition fprintf (s : stream) (fmt : string) (args : list (fmt_arg float))
  : M unit :=
  fun w => Returns tt (emit (Out s fmt args) w).

Definition printf := fprintf stdout.

(** Writing [vals] to [x[0]], [x[1]], ... of a block: the extent of the
    block stays, and running past its end is undefined. *)
Definition write_block (old vals : list float) : option (list float) :=
  if decide (length vals <= length old)%nat
  then Some (vals ++ drop (length vals) old)
  else None.

Definition load (p : addr) : M (list float) :=
  fun w =>
    match heap w !! p with
    | Some b => Returns b w
    | None => Undefined
    end.

Definition store (p : addr) (vals : list float) : M unit :=
  fun w =>
    match heap w !! p with
    | Some old =>
        match write_block old vals with
        | Some b => Returns tt (set_heap (<[p := b]> (heap w)) w)
        | None => Undefined
        end
    | None => Undefined
    end.

(** The call [lbfgs_malloc(n)] in the process. *)
Definition malloc (n : Z) : M ptr :=
  fun w =>
    match lbfgs_malloc n (heap w) with
    | Some (p, b) =>
        Returns (Some p) (log_mem (Allocated p) (set_heap (<[p := b]> (heap w)) w))
    | None => Returns NULL w
    end.

(** [delete [] p] for a non-null [p]. *)
Definition delete_array (p : addr) : M unit :=
  fun w =>
    match heap w !! p with
    | Some _ => Returns tt (log_mem (Released p) (set_heap (delete p (heap w)) w))
    | None => Undefined
    end.

(** ** class ObjectiveFunction (lines 52-161) *)

Record ObjectiveFunction := { m_x : ptr }.

(** [ObjectiveFunction() : m_x(NULL) {}] *)
Definition ObjectiveFunction_new : ObjectiveFunction := {| m_x := NULL |}.

Definition getFieldsAndCouplings (this : ObjectiveFunction) : ptr := m_x this.

(** The member functions read the statics of the enclosing function; they
    run only after those are initialised, and take them as [st]. *)
Section Methods.
Variable st : statics.

Definition evaluate (this : ObjectiveFunction) (x g : list float)
    (n : Z) (step : float) : M (float * list float) :=
  match gradient (plmdca_inst st) x g with
  | inl e => throw (engine_exn e)
  | inr fx_g => ret fx_g
  end.

Definition _evaluate (instance : ObjectiveFunction) (x g : list float)
    (n : Z) (step : float) : M (float * list float) :=
  evaluate instance x g n step.

Definition progress (this : ObjectiveFunction) (x g : list float)
    (fx xnorm gnorm step : float) (n k ls : Z) : M Z :=
  do _ <- when (logging st)
       (do _ <- fprintf stderr "Iteration %d:\n" [ArgInt k];
        do _ <- fprintf stderr "fx = %f xnorm = %f, gnorm = %f, step = %f\n"
             [ArgFloat fx; ArgFloat xnorm; ArgFloat gnorm; ArgFloat step];
        fprintf stderr "\n" []);
  ret 0.

Definition _progress (instance : ObjectiveFunction) (x g : list float)
    (fx xnorm gnorm step : float) (n k ls : Z) : M Z :=
  progress instance x g fx xnorm gnorm step n k ls.

(** The library running with [_evaluate], [_progress] and [instance]:
    every callback node of the tree is answered by the callback. *)
Fixpoint drive (instance : ObjectiveFunction) (d : driver float)
  : M (Z * list float * float) :=
  match d with
  | Finish r x fx => ret (r, x, fx)
  | Evaluate x g n step resume =>
      do fx_g <- _evaluate instance x g n step;
      drive instance (resume (fst fx_g) (snd fx_g))
  | Progress x g fx xnorm gnorm step n k ls resume =>
      do r <- _progress instance x g fx xnorm gnorm step n k ls;
      drive instance (resume r)
  end.

(** [lbfgs(N, m_x, &fx, _evaluate, _progress, this, &param)]: the
    library reads the block at [x], runs, and leaves its result in the
    block and in [fx]. The callbacks take [x] as [const float*]: they see
    its values and write nothing to it, so what the library writes to the
    block is committed here, when it returns. *)
Definition call_lbfgs (N : Z) (x : addr) (instance : ObjectiveFunction)
    (param : lbfgs_parameter_t float param_rest) : M (Z * float) :=
  do x0 <- load x;
  do r <- drive instance (lbfgs N x0 param);
  do _ <- store x (snd (fst r));
  ret (fst (fst r), snd r).

Definition run (this : ObjectiveFunction) (N : Z) : M (Z * ObjectiveFunction) :=
  do p <- malloc N;
  let this := {| m_x := p |} in
  match m_x this with
  | None =>
      do _ <- printf "ERROR: Failed to allocate a memory block for variables.\n" [];
      ret (1, this)
  | Some x =>
      let param := lbfgs_parameter_init in
      let param := set_epsilon (float_of_literal (Decimal 1 (-3))) param in
      let param := set_max_iterations (num_iterations st) param in
      let param := set_max_linesearch 5 param in
      let param := set_ftol (float_of_literal (Decimal 1 (-4))) param in
      let param := set_m 5 param in
      do old <- load x;
      do _ <- store x (initFieldsAndCouplings (plmdca_inst st) old);
      do r <- call_lbfgs N x this param;
      do _ <- when (logging st)
           (do _ <- fprintf stderr
                 "L-BFGS optimization terminated with status code = %d\n"
                 [ArgInt (fst r)];
            fprintf stderr "fx = %f\n" [ArgFloat (snd r)]);
      ret (fst r, this)
  end.

End Methods.

(** ** plmdcaBackend (lines 10-172)

    The three statics are initialised the first time control passes their
    declarations and never again. The constructor of [PlmDCA] is taken to
    return, so the three are initialised together; a constructor that
    throws, which would leave them uninitialised for the next call, is not
    represented, and nothing below is stated of a call in which it
    does. *)
Definition init_statics (biomolecule num_site_states : Z) (msa_file : string)
    (seqs_len : Z) (seqid lambda_h lambda_J : float)
    (max_iteration num_threads : Z) (verbose : bool) : M statics :=
  fun w =>
    match static_vars w with
    | Some st => Returns st w
    | None =>
        let st := Statics
                    (PlmDCA_new msa_file biomolecule seqs_len num_site_states
                       seqid lambda_h lambda_J num_threads)
                    (Int.to_int max_iteration)
                    verbose in
        Returns st (set_statics st w)
    end.

Definition plmdcaBackend (biomolecule num_site_states : Z) (msa_file : string)
    (seqs_len : Z) (seqid lambda_h lambda_J : float)
    (max_iteration num_threads : Z) (verbose : bool) : M ptr :=
  do _ <- (if openmp then
        ret tt (* can use multiple threads *)
      else
        when (1 <? num_threads)
          (do _ <- fprintf stderr
                "Cannot set multiple threads when OpenMP is not supported\n" [];
           throw (runtime_error "Invalid number of threads")));
  let total_num_params := total_num_params seqs_len num_site_states in
  do st <- init_statics biomolecule num_site_states msa_file seqs_len seqid
             lambda_h lambda_J max_iteration num_threads verbose;
  let fun_ := ObjectiveFunction_new in
  let N := total_num_params in
  do r <- run st fun_ N;
  let h_and_J := getFieldsAndCouplings (snd r) in
  ret h_and_J.

(** ** freeFieldsAndCouplings (lines 175-195)

    The assignment of [nullptr] to the local [h_and_J_casted] after the
    release has no effect outside the function. *)
Definition freeFieldsAndCouplings (h_and_J : ptr) : M unit :=
  let h_and_J_casted := h_and_J in
  match h_and_J_casted with
  | Some p => delete_array p
  | None => ret tt
  end.

(** *** Vocabulary for the statements below *)

(** The record [run] hands to [lbfgs]. *)
Definition run_param (st : statics) : lbfgs_parameter_t float param_rest :=
  set_m 5
    (set_ftol (float_of_literal (Decimal 1 (-4)))
       (set_max_linesearch 5
          (set_max_iterations (num_iterations st)
             (set_epsilon (float_of_literal (Decimal 1 (-3)))
                lbfgs_parameter_init)))).

(** What one call of [progress] adds to the output. *)
Definition progress_lines (k : Z) (fx xnorm gnorm step : float)
  : list (output_event float) :=
  [ Out stderr "Iteration %d:\n" [ArgInt k];
    Out stderr "fx = %f xnorm = %f, gnorm = %f, step = %f\n"
      [ArgFloat fx; ArgFloat xnorm; ArgFloat gnorm; ArgFloat step];
    Out stderr "\n" [] ].

(** What [run] adds to the output after [lbfgs] has returned. *)
Definition report_lines (status : Z) (fx : float) : list (output_event float) :=
  [ Out stderr "L-BFGS optimization terminated with status code = %d\n"
      [ArgInt status];
    Out stderr "fx = %f\n" [ArgFloat fx] ].

Definition emit_all (es : list (output_event float)) (w : world) : world :=
  World (heap w) (static_vars w) (output w ++ es) (mem_log w).

Definition allocation_error : output_event float :=
  Out stdout "ERROR: Failed to allocate a memory block for variables.\n" [].

Definition thread_error : output_event float :=
  Out stderr "Cannot set multiple threads when OpenMP is not supported\n" [].

(** The world in which [run] calls [lbfgs]: the new block at [p] holds
    [b1], the initial guess of the engine. *)
Definition at_lbfgs_entry (w : world) (p : addr) (b1 : list float) : world :=
  World (<[p := b1]> (heap w)) (static_vars w) (output w)
        (mem_log w ++ [Allocated p]).

(** [run] logs its report only when [logging] is set. *)
Definition report (st : statics) (status : Z) (fx : float) (w : world) : world :=
  if logging st then emit_all (report_lines status fx) w else w.

(** The statics a call of [plmdcaBackend] works with: those already
    there, or else those it initialises from its own arguments. *)
Definition statics_in_effect (biomolecule num_site_states : Z)
    (msa_file : string) (seqs_len : Z) (seqid lambda_h lambda_J : float)
    (max_iteration num_threads : Z) (verbose : bool) (w : world) : statics :=
  match static_vars w with
  | Some st => st
  | None =>
      Statics
        (PlmDCA_new msa_file biomolecule seqs_len num_site_states
           seqid lambda_h lambda_J num_threads)
        (Int.to_int max_iteration)
        verbose
  end.

(** The world a computation ends in ([w0] if it has none). *)
Definition ends_in {A} (o : outcome A) (w0 : world) : world :=
  match o with
  | Returns _ w | Throws _ w => w
  | Undefined => w0
  end.

(** Every leaf of the tree leaves at most [len] values in [x]. *)
Inductive finishes_within (len : nat) : driver float -> Prop :=
| fw_finish r x fx :
    (length x <= len)%nat -> finishes_within len (Finish r x fx)
| fw_evaluate x g n step resume :
    (forall fx g', finishes_within len (resume fx g')) ->
    finishes_within len (Evaluate x g n step resume)
| fw_progress x g fx xnorm gnorm step n k ls resume :
    (forall r, finishes_within len (resume r)) ->
    finishes_within len (Progress x g fx xnorm gnorm step n k ls resume).

(** Modelled from the spec: the Optimizer Driver [lbfgs] (L-BFGS library,
    not in this translation unit) under an iteration cap of zero: "the
    Driver performs the initial evaluation (to report status) but no
    descent step". *)
Definition zero_cap_no_descent : Prop :=
  forall (n : Z) (x : list float) (param : lbfgs_parameter_t float param_rest),
    max_iterations param = 0 ->
    exists g0 step0 resume,
      lbfgs n x param = Evaluate x g0 n step0 resume
      /\ forall fx g, exists status, resume fx g = Finish status x fx.

(** A line written to the standard error stream. *)
Definition on_stderr (e : output_event float) : Prop := out_stream e = stderr.

(** The world after a call that allocated at [p]: block [p] holds [b], the
    statics are [st], [evs] has been written, one allocation is logged. *)
Definition after_allocating (w : world) (st : statics) (p : addr)
    (b : list float) (evs : list (output_event float)) : world :=
  World (<[p := b]> (heap w)) (Some st) (output w ++ evs)
        (mem_log w ++ [Allocated p]).

End Backend.

Arguments Returns {Ext A} a w.
Arguments Throws {Ext A} e w.
Arguments Undefined {Ext A}.

(** ** A small instance of the interface

    Floats are IEEE binary32 values; the engine minimises
    [sum (x_i - 1)^2] from the origin and refuses a vector with a
    non-finite entry; the library makes one unit gradient step per
    iteration; the host can provide [capacity] floats per request. *)
Module Sample.
Definition f32 : Type := spec_float.
Definition f32_of_Z (z : Z) : f32 := binary_normalize 24 128 z 0 false.
Definition zero : f32 := S754_zero false.
Definition one : f32 := f32_of_Z 1.
Definition add : f32 -> f32 -> f32 := SFadd 24 128.
Definition sub : f32 -> f32 -> f32 := SFsub 24 128.
Definition mul : f32 -> f32 -> f32 := SFmul 24 128.

Definition of_literal (d : decimal) : f32 :=
  if 0 <=? exponent10 d
  then f32_of_Z (mantissa d * 10 ^ exponent10 d)
  else SFdiv 24 128 (f32_of_Z (mantissa d)) (f32_of_Z (10 ^ (- exponent10 d))).

Definition finite (x : f32) : bool :=
  match x with
  | S754_zero _ | S754_finite _ _ _ => true
  | S754_infinity _ | S754_nan => false
  end.

Definition sum_sq (v : list f32) : f32 :=
  foldr (fun y acc => add (mul y y) acc) zero v.

(** The engine remembers the shape it was built for. *)
Record engine := { e_len : Z; e_states : Z }.

Definition engine_new (msa_file : string) (biomolecule seqs_len num_site_states : Z)
    (seqid lambda_h lambda_J : f32) (num_threads : Z) : engine :=
  {| e_len := seqs_len; e_states := num_site_states |}.

Definition engine_init (e : engine) (old : list f32) : list f32 :=
  replicate (Z.to_nat (total_num_params (e_len e) (e_states e))) zero.

Definition engine_gradient (e : engine) (x g : list f32)
  : string + (f32 * list f32) :=
  if forallb finite x then
    let g' := map (fun xi => sub xi one) x in
    inr (sum_sq g', g')
  else inl "non-finite parameter"%string.

Definition is_zero (x : f32) : bool :=
  match x with S754_zero _ => true | _ => false end.

(** Status codes of this library. *)
Definition converged : Z := 0.
Definition cap_reached : Z := -997.
Definition cancelled : Z := -1001.

(** Iterations [k], [k+1], ... of the library, at most [left] of them:
    stop when the gradient vanishes or the cap is reached, else step
    against the gradient, evaluate, report progress. *)
Fixpoint descend (left : nat) (k n : Z) (x g : list f32) (fx : f32) : driver f32 :=
  match left with
  | O => Finish (if forallb is_zero g then converged else cap_reached) x fx
  | S left' =>
      if forallb is_zero g then Finish converged x fx
      else
        let x' := zip_with sub x g in
        Evaluate x' g n one (fun fx' g' =>
          Progress x' g' fx' (sum_sq x') (sum_sq g') one n k 1 (fun r =>
            if r =? 0 then descend left' (k + 1) n x' g' fx'
            else Finish cancelled x' fx'))
  end.

Definition minimise (n : Z) (x : list f32) (param : lbfgs_parameter_t f32 unit)
  : driver f32 :=
  Evaluate x (replicate (length x) zero) n zero (fun fx g =>
    descend (Z.to_nat (max_iterations param)) 1 n x g fx).

Definition capacity : Z := 1000.

Definition alloc (n : Z) (h : gmap addr (list f32)) : option (addr * list f32) :=
  if (0 <=? n) && (n <=? capacity)
  then Some (fresh (dom h), replicate (Z.to_nat n) zero)
  else None.

Lemma alloc_length n h p b :
  alloc n h = Some (p, b) -> Z.of_nat (length b) = n.
Proof.
  unfold alloc. destruct ((0 <=? n) && (n <=? capacity)) eqn:E; [|discriminate].
  intros [= _ <-]. rewrite length_replicate. apply andb_true_iff in E. lia.
Qed.

Lemma alloc_fresh n h p b :
  alloc n h = Some (p, b) -> h !! p = None.
Proof.
  unfold alloc. destruct ((0 <=? n) && (n <=? capacity)); [|discriminate].
  intros [= <- _]. apply not_elem_of_dom, is_fresh.
Qed.

Definition externals (omp : bool) : Externals := {|
  float := f32;
  float_of_literal := of_literal;
  openmp := omp;
  PlmDCA := engine;
  engine_error := string;
  PlmDCA_new := engine_new;
  initFieldsAndCouplings := engine_init;
  gradient := engine_gradient;
  param_rest := unit;
  lbfgs_parameter_init := Param 6 (of_literal (Decimal 1 (-5))) 0 40
                            (of_literal (Decimal 1 (-4))) tt;
  lbfgs := minimise;
  lbfgs_malloc := alloc;
  lbfgs_malloc_length := alloc_length;
  lbfgs_malloc_fresh := alloc_fresh
|}.

(** The process before the first call. *)
Definition boot (omp : bool) : @world (externals omp) :=
  @World (externals omp) ∅ None [] [].

(** An identity threshold of 0.8 and regularisation strengths of 0.01. *)
Definition seqid : f32 := of_literal (Decimal 8 (-1)).
Definition lambda : f32 := of_literal (Decimal 1 (-2)).

Lemma zero_cap omp : zero_cap_no_descent (Ext := externals omp).
Proof.
  intros n x param Hcap.
  exists (replicate (length x) zero), zero,
         (fun fx g => descend (Z.to_nat (max_iterations param)) 1 n x g fx).
  split; [reflexivity|].
  intros fx g. rewrite Hcap. cbn. eexists. reflexivity.
Qed.

End Sample.

(** ** The same instance with an engine that fails

    [gradient] throws at every call; everything else is as in [Sample]. *)
Module Faulty.

Definition broken_gradient (e : Sample.engine) (x g : list Sample.f32)
  : string + (Sample.f32 * list Sample.f32) :=
  inl "engine failure"%string.

Definition externals : Externals := {|
  float := Sample.f32;
  float_of_literal := Sample.of_literal;
  openmp := true;
  PlmDCA := Sample.engine;
  engine_error := string;
  PlmDCA_new := Sample.engine_new;
  initFieldsAndCouplings := Sample.engine_init;
  gradient := broken_gradient;
  param_rest := unit;
  lbfgs_parameter_init := Param 6 (Sample.of_literal (Decimal 1 (-5))) 0 40
                            (Sample.of_literal (Decimal 1 (-4))) tt;
  lbfgs := Sample.minimise;
  lbfgs_malloc := Sample.alloc;
  lbfgs_malloc_length := Sample.alloc_length;
  lbfgs_malloc_fresh := Sample.alloc_fresh
|}.

Definition boot : @world externals := @World externals ∅ None [] [].

(** A process in which an earlier call has initialised the statics. *)
Definition running : @world externals :=
  @World externals ∅
    (Some (@Statics externals
             (Sample.engine_new "msa.fa" 1 3 2 Sample.seqid Sample.lambda
                Sample.lambda 1)
             10 true))
    [] [].

End Faulty.

(** * Properties *)

(** ** The parameter count *)

Section Counting.

Lemma wrap_small z : 0 <= z < Int.modulus -> Int.wrap z = z.
Proof. intros H. unfold Int.wrap. now apply Z.mod_small. Qed.

Lemma to_int_small z : 0 <= z <= Int.max_signed -> Int.to_int z = z.
Proof.
  intros H. unfold Int.to_int, Int.max_signed, Int.modulus in *.
  rewrite wrap_small by (unfold Int.modulus; lia).
  destruct (Z.leb_spec z (2 ^ 31 - 1)); lia.
Qed.


(** A product of two consecutive integers is even. *)
Lemma consecutive_even L : (L * (L - 1)) mod 2 = 0.
Proof.
  destruct (Z.Even_or_Odd L) as [[k ->] | [k ->]].
  - replace (2 * k * (2 * k - 1)) with (k * (2 * k - 1) * 2) by lia.
    apply Z.mod_mul; lia.
  - replace ((2 * k + 1) * (2 * k + 1 - 1)) with ((2 * k + 1) * k * 2) by lia.
    apply Z.mod_mul; lia.
Qed.

Lemma half_pairs L Q : L * (L - 1) * Q * Q / 2 = L * (L - 1) / 2 * Q ^ 2.
Proof.
  pose proof (consecutive_even L) as E.
  apply Z.mod_divide in E; [|lia]. destruct E as [c E].
  rewrite E. rewrite Z.div_mul by lia.
  replace (c * 2 * Q * Q) with (c * Q ^ 2 * 2) by lia.
  now rewrite Z.div_mul by lia.
Qed.

(** The products of line 47, each reduced modulo 2^32 as it is formed,
    agree modulo 2^32 with the product over the integers. *)
Lemma pair_product_wraps L Q :
  Int.umul (Int.umul (Int.umul L (Int.usub L 1)) Q) Q
  = Int.wrap (L * (L - 1) * Q * Q).
Proof.
  unfold Int.umul, Int.usub, Int.wrap.
  assert (Int.modulus <> 0) by (unfold Int.modulus; lia).
  rewrite Z.mul_mod_idemp_r by assumption.
  rewrite (Z.mul_mod_idemp_l (L * (L - 1)) Q) by assumption.
  rewrite (Z.mul_mod_idemp_l (L * (L - 1) * Q) Q) by assumption.
  reflexivity.
Qed.

(** When the documented count fits in an [int], no step of line 47 loses
    anything. *)
Lemma total_num_params_fits L Q :
  0 <= L -> 0 <= Q -> param_count L Q <= Int.max_signed ->
  total_num_params L Q = param_count L Q.
Proof.
  intros HL HQ Hfit. unfold total_num_params.
  rewrite pair_product_wraps.
  pose proof (half_pairs L Q) as Hhalf.
  pose proof (consecutive_even L) as E.
  apply Z.mod_divide in E; [|lia]. destruct E as [c E].
  assert (0 <= L * (L - 1)) by nia.
  assert (0 <= c) by lia.
  assert (Hc : L * (L - 1) / 2 = c) by (rewrite E; apply Z.div_mul; lia).
  unfold param_count in *. rewrite Hc in *.
  unfold Int.max_signed in Hfit.
  assert (0 <= L * Q) by nia.
  assert (0 <= c * Q ^ 2) by nia.
  assert (HP : L * (L - 1) * Q * Q = c * Q ^ 2 * 2) by (rewrite E; lia).
  unfold Int.uadd, Int.umul, Int.udiv.
  rewrite HP.
  rewrite (wrap_small (c * Q ^ 2 * 2)) by (unfold Int.modulus; lia).
  rewrite Z.div_mul by lia.
  rewrite (wrap_small (L * Q)) by (unfold Int.modulus; lia).
  rewrite (wrap_small (L * Q + c * Q ^ 2)) by (unfold Int.modulus; lia).
  apply to_int_small. unfold Int.max_signed. lia.
Qed.


End Counting.




(** ** The adapter *)

Section Adapter.
Context `{Ext : Externals}.
Implicit Types (w : world) (st : statics) (this instance : ObjectiveFunction).

Lemma set_statics_id st w : static_vars w = Some st -> set_statics st w = w.
Proof. destruct w; simpl; intros ->; reflexivity. Qed.

Lemma emit_all_app es es' w : emit_all es' (emit_all es w) = emit_all (es ++ es') w.
Proof. unfold emit_all; simpl. now rewrite app_assoc. Qed.

Lemma emit_emit_all e w : emit e w = emit_all [e] w.
Proof. reflexivity. Qed.

(** *** The callbacks *)

Lemma evaluate_eq st this x g n step w :
  _evaluate st this x g n step w =
    match gradient (plmdca_inst st) x g with
    | inl e => Throws (engine_exn e) w
    | inr fx_g => Returns fx_g w
    end.
Proof.
  unfold _evaluate, evaluate. destruct (gradient _ x g); reflexivity.
Qed.

Lemma progress_eq st this x g fx xnorm gnorm step n k ls w :
  _progress st this x g fx xnorm gnorm step n k ls w =
    Returns 0 (if logging st
               then emit_all (progress_lines k fx xnorm gnorm step) w
               else w).
Proof.
  unfold _progress, progress, bind, when, fprintf, ret.
  destruct (logging st); [|reflexivity].
  simpl. rewrite !emit_emit_all, !emit_all_app. reflexivity.
Qed.

(** *** The library running with the callbacks *)

(** Two worlds that differ at most in what has been written out. *)
Definition same_memory w w' : Prop :=
  heap w' = heap w /\ static_vars w' = static_vars w /\ mem_log w' = mem_log w.

Lemma same_memory_refl w : same_memory w w.
Proof. repeat split. Qed.

Lemma same_memory_trans w1 w2 w3 :
  same_memory w1 w2 -> same_memory w2 w3 -> same_memory w1 w3.
Proof. unfold same_memory. intuition congruence. Qed.

Lemma same_memory_emit_all es w : same_memory w (emit_all es w).
Proof. repeat split. Qed.

(** [lbfgs] with these callbacks touches no block and no static; it ends
    by returning or with an exception of the engine, thrown in
    [_evaluate]. *)
Lemma drive_frame st instance d : forall w,
  match drive st instance d w with
  | Returns _ w' => same_memory w w'
  | Throws e w' => same_memory w w' /\ exists e', e = engine_exn e'
  | Undefined => False
  end.
Proof.
  induction d as [r x fx | x g n step resume IH
                 | x g fx xnorm gnorm step n k ls resume IH]; intros w.
  - simpl. apply same_memory_refl.
  - simpl. unfold bind. rewrite evaluate_eq.
    destruct (gradient (plmdca_inst st) x g) as [e | [fx' g']].
    + split; [apply same_memory_refl | eauto].
    + apply IH.
  - simpl. unfold bind. rewrite progress_eq.
    specialize (IH 0 (if logging st
                      then emit_all (progress_lines k fx xnorm gnorm step) w
                      else w)).
    assert (Hm : same_memory w (if logging st
                      then emit_all (progress_lines k fx xnorm gnorm step) w
                      else w))
      by (destruct (logging st); [apply same_memory_emit_all | apply same_memory_refl]).
    destruct (drive st instance (resume 0) _) as [a w' | e w' |].
    + eapply same_memory_trans; eassumption.
    + destruct IH as [IH1 IH2]. split; [|assumption].
      eapply same_memory_trans; eassumption.
    + assumption.
Qed.

(** When the engine's [gradient] never throws, [lbfgs] returns, with
    values for [x] that some leaf of its tree holds. *)
Lemma drive_returns st instance len d :
  (forall x g, exists fx_g, gradient (plmdca_inst st) x g = inr fx_g) ->
  finishes_within len d ->
  forall w, exists status x' fx w',
    drive st instance d w = Returns (status, x', fx) w'
    /\ (length x' <= len)%nat.
Proof.
  intros Htotal Hfw. induction Hfw as [r x fx Hlen | x g n step resume _ IH
                 | x g fx xnorm gnorm step n k ls resume _ IH]; intros w.
  - simpl. unfold ret. eauto 10.
  - simpl. unfold bind. rewrite evaluate_eq.
    destruct (Htotal x g) as [[fx' g'] ->]. apply IH.
  - simpl. unfold bind. rewrite progress_eq. apply IH.
Qed.

(** *** run *)

Lemma run_null st this N w :
  lbfgs_malloc N (heap w) = None ->
  run st this N w = Returns (1, {| m_x := NULL |}) (emit_all [allocation_error] w).
Proof.
  intros H. unfold run, bind, malloc. rewrite H. reflexivity.
Qed.

Lemma run_allocated st this N w p b :
  lbfgs_malloc N (heap w) = Some (p, b) ->
  run st this N w =
    match write_block b (initFieldsAndCouplings (plmdca_inst st) b) with
    | None => Undefined
    | Some b1 =>
        match drive st {| m_x := Some p |} (lbfgs N b1 (run_param st))
                (at_lbfgs_entry w p b1) with
        | Returns (status, x', fx) w2 =>
            match write_block b1 x' with
            | None => Undefined
            | Some b2 =>
                Returns (status, {| m_x := Some p |})
                  (report st status fx (set_heap (<[p := b2]> (heap w2)) w2))
            end
        | Throws e w2 => Throws e w2
        | Undefined => Undefined
        end
    end.
Proof.
  intros H. unfold run, bind at 1. unfold malloc. rewrite H. cbn [m_x].
  set (wm := log_mem (Allocated p) (set_heap (<[p:=b]> (heap w)) w)).
  assert (Hwm : heap wm !! p = Some b) by apply lookup_insert_eq.
  unfold bind at 1. unfold load at 1. rewrite Hwm.
  unfold bind at 1. unfold store at 1. rewrite Hwm.
  destruct (write_block b _) as [b1|]; [|reflexivity].
  assert (Hw1 : set_heap (<[p:=b1]> (heap wm)) wm = at_lbfgs_entry w p b1).
  { subst wm. unfold at_lbfgs_entry, set_heap, log_mem. cbn.
    now rewrite insert_insert_eq. }
  rewrite Hw1. clear Hw1 Hwm wm.
  assert (Hl : heap (at_lbfgs_entry w p b1) !! p = Some b1)
    by apply lookup_insert_eq.
  fold (run_param st).
  unfold bind at 1. unfold call_lbfgs, bind at 1.
  unfold load at 1. rewrite Hl.
  unfold bind at 1.
  pose proof (drive_frame st {| m_x := Some p |} (lbfgs N b1 (run_param st))
                (at_lbfgs_entry w p b1)) as Hf.
  destruct (drive st _ _ _) as [[[status x'] fx] w2 | e w2 |];
    [|reflexivity|reflexivity].
  destruct Hf as (Hheap & _ & _).
  unfold bind at 1. unfold store. rewrite Hheap, Hl.
  cbn [fst snd].
  destruct (write_block b1 x') as [b2|]; [|reflexivity].
  unfold bind, ret, when, report, fprintf.
  destruct (logging st); [|reflexivity].
  cbn [fst snd]. rewrite !emit_emit_all, emit_all_app. reflexivity.
Qed.

Lemma write_block_length (old vals b : list float) :
  write_block old vals = Some b -> length b = length old.
Proof.
  unfold write_block. case_decide; [|discriminate]. intros [= <-].
  rewrite length_app, length_drop. lia.
Qed.

Lemma write_block_fits (old vals : list float) :
  (length vals <= length old)%nat -> is_Some (write_block old vals).
Proof. intros H. unfold write_block. case_decide; [eauto | contradiction]. Qed.

Lemma write_block_same (b : list float) : write_block b b = Some b.
Proof.
  unfold write_block. case_decide; [|lia].
  now rewrite drop_all, app_nil_r.
Qed.

Lemma report_heap st status fx w : heap (report st status fx w) = heap w.
Proof. unfold report. destruct (logging st); reflexivity. Qed.

Lemma report_statics st status fx w :
  static_vars (report st status fx w) = static_vars w.
Proof. unfold report. destruct (logging st); reflexivity. Qed.

(** [run] leaves the statics alone, and throws nothing of its own. *)
Lemma run_frame st this N w :
  match run st this N w with
  | Returns _ w' => static_vars w' = static_vars w
  | Throws e w' => static_vars w' = static_vars w /\ exists e', e = engine_exn e'
  | Undefined => True
  end.
Proof.
  destruct (lbfgs_malloc N (heap w)) as [[p b]|] eqn:Hm.
  - rewrite (run_allocated st this N w p b Hm).
    destruct (write_block b _) as [b1|]; [|exact I].
    pose proof (drive_frame st {| m_x := Some p |} (lbfgs N b1 (run_param st))
                  (at_lbfgs_entry w p b1)) as Hf.
    destruct (drive st _ _ _) as [[[status x'] fx] w2 | e w2 |].
    + destruct (write_block b1 x'); [|exact I].
      rewrite report_statics. apply Hf.
    + destruct Hf as [(_ & Hs & _) He]. split; assumption.
    + exact I.
  - rewrite (run_null st this N w Hm). reflexivity.
Qed.

(** [run] after a successful allocation and a return of [lbfgs]. *)
Lemma buffer_survives st N w p b b1 status x' fx w2 b2 :
  lbfgs_malloc N (heap w) = Some (p, b) ->
  write_block b (initFieldsAndCouplings (plmdca_inst st) b) = Some b1 ->
  drive st {| m_x := Some p |} (lbfgs N b1 (run_param st)) (at_lbfgs_entry w p b1)
  = Returns (status, x', fx) w2 ->
  write_block b1 x' = Some b2 ->
  exists w',
    run st ObjectiveFunction_new N w = Returns (status, {| m_x := Some p |}) w'
    /\ heap w' !! p = Some b2.
Proof.
  intros Hm Hinit Hdrive Hb2. eexists. split.
  - rewrite (run_allocated st _ N w p b Hm), Hinit, Hdrive, Hb2. reflexivity.
  - rewrite report_heap. apply lookup_insert_eq.
Qed.

(** *** plmdcaBackend *)

Lemma backend_refuses biomolecule num_site_states msa_file seqs_len
    seqid lambda_h lambda_J max_iteration num_threads verbose w :
  openmp = false -> 1 < num_threads ->
  plmdcaBackend biomolecule num_site_states msa_file seqs_len
    seqid lambda_h lambda_J max_iteration num_threads verbose w
  = Throws (runtime_error "Invalid number of threads")
      (emit_all [thread_error] w).
Proof.
  intros Homp Hthreads. unfold plmdcaBackend, bind at 1. rewrite Homp.
  apply Z.ltb_lt in Hthreads. rewrite Hthreads. reflexivity.
Qed.

Lemma backend_passes biomolecule num_site_states msa_file seqs_len
    seqid lambda_h lambda_J max_iteration num_threads verbose w :
  openmp = true \/ num_threads <= 1 ->
  plmdcaBackend biomolecule num_site_states msa_file seqs_len
    seqid lambda_h lambda_J max_iteration num_threads verbose w
  = let st := statics_in_effect biomolecule num_site_states msa_file seqs_len
                seqid lambda_h lambda_J max_iteration num_threads verbose w in
    match run st ObjectiveFunction_new
            (total_num_params seqs_len num_site_states) (set_statics st w) with
    | Returns r w' => Returns (getFieldsAndCouplings (snd r)) w'
    | Throws e w' => Throws e w'
    | Undefined => Undefined
    end.
Proof.
  intros Hok. unfold plmdcaBackend, bind at 1.
  assert (Hguard : (if openmp then ret tt
                    else when (1 <? num_threads)
                           (bind (fprintf stderr
                              "Cannot set multiple threads when OpenMP is not supported\n" [])
                              (fun _ => throw (runtime_error "Invalid number of threads"))))
                   w = Returns tt w).
  { destruct Hok as [-> | Hle]; [reflexivity|].
    destruct openmp; [reflexivity|].
    apply Z.ltb_ge in Hle. rewrite Hle. reflexivity. }
  rewrite Hguard. clear Hguard.
  unfold bind at 1. unfold init_statics, statics_in_effect.
  destruct (static_vars w) as [st|] eqn:Hst.
  - rewrite (set_statics_id st w Hst). unfold bind, ret.
    destruct (run st _ _ w) as [[status f] w' | e w' |]; reflexivity.
  - unfold bind, ret. cbv zeta.
    destruct (run _ _ _ _) as [[status f] w' | e w' |]; reflexivity.
Qed.

(** [plmdcaBackend] does return a handle: it is enough that the block is
    allocated, that the engine stays within it, that [gradient] never
    throws and that the library leaves at most as many values as the block
    holds. *)
Lemma backend_returns biomolecule num_site_states msa_file seqs_len
    seqid lambda_h lambda_J max_iteration num_threads verbose w st N p b b1 :
  openmp = true \/ num_threads <= 1 ->
  st = statics_in_effect biomolecule num_site_states msa_file seqs_len
         seqid lambda_h lambda_J max_iteration num_threads verbose w ->
  N = total_num_params seqs_len num_site_states ->
  lbfgs_malloc N (heap w) = Some (p, b) ->
  write_block b (initFieldsAndCouplings (plmdca_inst st) b) = Some b1 ->
  (forall x g, exists fx_g, gradient (plmdca_inst st) x g = inr fx_g) ->
  finishes_within (length b1) (lbfgs N b1 (run_param st)) ->
  exists w',
    plmdcaBackend biomolecule num_site_states msa_file seqs_len
      seqid lambda_h lambda_J max_iteration num_threads verbose w
    = Returns (Some p) w'.
Proof.
  intros Hok Hst HN Hm Hinit Htotal Hfw.
  destruct (drive_returns st {| m_x := Some p |} (length b1) _ Htotal Hfw
              (at_lbfgs_entry (set_statics st w) p b1))
    as (status & x' & fx & w2 & Hdrive & Hlen).
  destruct (write_block_fits b1 x' Hlen) as [b2 Hb2].
  destruct (buffer_survives st N (set_statics st w) p b b1 status x' fx w2 b2)
    as (w' & Hrun & _); try assumption.
  exists w'. rewrite backend_passes by assumption. cbv zeta.
  rewrite <- Hst, <- HN, Hrun. reflexivity.
Qed.

End Adapter.

(** ** What the adapter guarantees *)

(** C2. When [_OPENMP] is not defined and [num_threads > 1], the call
    writes the configuration message and throws [std::runtime_error] at
    once: no block is allocated, no static is initialised (the engine is
    not constructed) and no handle is produced. When [_OPENMP] is defined
    or [num_threads <= 1], the call never ends with a [runtime_error]. *)
Theorem thread_count_validated `{Ext : Externals}
    (biomolecule num_site_states : Z) (msa_file : string) (seqs_len : Z)
    (seqid lambda_h lambda_J : float) (max_iteration num_threads : Z)
    (verbose : bool) (w : world) :
  (openmp = false -> 1 < num_threads ->
   exists w',
     plmdcaBackend biomolecule num_site_states msa_file seqs_len
       seqid lambda_h lambda_J max_iteration num_threads verbose w
     = Throws (runtime_error "Invalid number of threads") w'
     /\ heap w' = heap w
     /\ mem_log w' = mem_log w
     /\ static_vars w' = static_vars w
     /\ output w' = output w ++ [thread_error])
  /\ (openmp = true \/ num_threads <= 1 ->
      forall what w',
        plmdcaBackend biomolecule num_site_states msa_file seqs_len
          seqid lambda_h lambda_J max_iteration num_threads verbose w
        <> Throws (runtime_error what) w').
Proof.
  split.
  - intros Homp Hthreads. eexists. split.
    + apply backend_refuses; assumption.
    + repeat split.
  - intros Hok what w'. rewrite backend_passes by assumption. cbv zeta.
    match goal with |- context [run ?st ?f ?N ?w0] =>
      pose proof (run_frame st f N w0) as Hf;
      destruct (run st f N w0) as [r w1 | e w1 |] end.
    + discriminate.
    + destruct Hf as [_ [e' ->]]. discriminate.
    + discriminate.
Qed.

Lemma thread_count_validated_witness :
  (exists w',
     plmdcaBackend (Ext := Sample.externals false) 1 2 "msa.fa" 3
       Sample.seqid Sample.lambda Sample.lambda 10 3 false (Sample.boot false)
     = Throws (runtime_error "Invalid number of threads") w'
     /\ heap w' = ∅ /\ mem_log w' = [] /\ static_vars w' = None
     /\ output w' = [thread_error])
  /\ (forall what w',
        plmdcaBackend (Ext := Sample.externals false) 1 2 "msa.fa" 3
          Sample.seqid Sample.lambda Sample.lambda 10 1 false (Sample.boot false)
        <> Throws (runtime_error what) w').
Proof.
  split.
  - apply (thread_count_validated (Ext := Sample.externals false) 1 2 "msa.fa" 3
             Sample.seqid Sample.lambda Sample.lambda 10 3 false (Sample.boot false));
      [reflexivity | lia].
  - apply (thread_count_validated (Ext := Sample.externals false) 1 2 "msa.fa" 3
             Sample.seqid Sample.lambda Sample.lambda 10 1 false (Sample.boot false)).
    right. lia.
Defined.

(** C3. When [lbfgs_malloc] gives a null pointer, [run] writes the error
    message on standard output and returns 1 with [m_x] null; what it
    leaves behind depends neither on [initFieldsAndCouplings] nor on
    [lbfgs]: no block exists that did not before, and [plmdcaBackend]
    returns the null handle. *)
Theorem allocation_failure_reported `{Ext : Externals}
    (biomolecule num_site_states : Z) (msa_file : string) (seqs_len : Z)
    (seqid lambda_h lambda_J : float) (max_iteration num_threads : Z)
    (verbose : bool) (w : world) (st : statics) (N : Z) :
  openmp = true \/ num_threads <= 1 ->
  st = statics_in_effect biomolecule num_site_states msa_file seqs_len
         seqid lambda_h lambda_J max_iteration num_threads verbose w ->
  N = total_num_params seqs_len num_site_states ->
  lbfgs_malloc N (heap w) = None ->
  exists w',
    run st ObjectiveFunction_new N (set_statics st w)
    = Returns (1, {| m_x := NULL |}) w'
    /\ getFieldsAndCouplings {| m_x := NULL |} = NULL
    /\ plmdcaBackend biomolecule num_site_states msa_file seqs_len
         seqid lambda_h lambda_J max_iteration num_threads verbose w
       = Returns NULL w'
    /\ heap w' = heap w
    /\ mem_log w' = mem_log w
    /\ output w' = output w ++ [allocation_error].
Proof.
  intros Hok -> -> Hm.
  eexists. split; [|split; [reflexivity|split]].
  - apply run_null. exact Hm.
  - rewrite backend_passes by assumption. cbv zeta.
    rewrite run_null by exact Hm. reflexivity.
  - repeat split.
Qed.

Lemma allocation_failure_reported_witness :
  exists w',
    plmdcaBackend (Ext := Sample.externals true) 1 21 "msa.fa" 100
      Sample.seqid Sample.lambda Sample.lambda 10 4 true (Sample.boot true)
    = Returns NULL w'
    /\ heap w' = ∅ /\ mem_log w' = []
    /\ output w' = [allocation_error].
Proof.
  destruct (allocation_failure_reported (Ext := Sample.externals true)
              1 21 "msa.fa" 100 Sample.seqid Sample.lambda Sample.lambda 10 4 true
              (Sample.boot true) _ _ (or_introl eq_refl) eq_refl eq_refl eq_refl)
    as (w' & _ & _ & Hcall & Hheap & Hlog & Hout).
  exists w'. repeat split; assumption.
Defined.








(** The same at a size a large host can serve: 100000 sites of 21 states. *)
Example wrapped_count_100000_21 :
  total_num_params 100000 21 = 1661827152
  /\ param_count 100000 21 = 2204980050000.
Proof. split; reflexivity. Qed.

(** C4. A call with [max_iteration = 0] is to make no descent step and to
    return the initial guess of the engine. The code does so only when the
    call is the one that initialises the static [num_iterations]: a later
    call runs under the cap of that earlier call. Here the library makes
    no descent step under a zero cap, the first call sets the cap to 5,
    and the second call, with [max_iteration = 0], still runs under 5 and
    returns the minimiser, not the initial guess. *)
Lemma stale_cap_descends :
  exists w1 w2,
    zero_cap_no_descent (Ext := Sample.externals true)
    /\ num_iterations <$> static_vars w1 = Some 5
    /\ num_iterations <$> static_vars w2 = Some 5
    /\ plmdcaBackend (Ext := Sample.externals true) 1 2 "msa.fa" 3
         Sample.seqid Sample.lambda Sample.lambda 5 1 false (Sample.boot true)
       = Returns (Some 1%positive) w1
    /\ plmdcaBackend (Ext := Sample.externals true) 1 2 "msa.fa" 3
         Sample.seqid Sample.lambda Sample.lambda 0 1 false w1
       = Returns (Some 2%positive) w2
    /\ heap w2 !! 2%positive = Some (replicate 18 Sample.one)
    /\ Sample.engine_init (Sample.engine_new "msa.fa" 1 3 2 Sample.seqid
                             Sample.lambda Sample.lambda 1)
         (replicate 18 Sample.zero)
       = replicate 18 Sample.zero
    /\ replicate 18 Sample.one <> replicate 18 Sample.zero.
Proof.
  pose (w1 := ends_in (plmdcaBackend (Ext := Sample.externals true) 1 2 "msa.fa" 3
                 Sample.seqid Sample.lambda Sample.lambda 5 1 false
                 (Sample.boot true)) (Sample.boot true)).
  pose (w2 := ends_in (plmdcaBackend (Ext := Sample.externals true) 1 2 "msa.fa" 3
                 Sample.seqid Sample.lambda Sample.lambda 0 1 false w1) w1).
  exists w1, w2. split; [apply Sample.zero_cap|].
  repeat split; try reflexivity. discriminate.
Qed.

(** C5 (as amended). The evaluation callback handles nothing: it returns
    the objective value and the gradient of the engine unchanged when
    [gradient] returns, and when [gradient] throws, the exception leaves
    [_evaluate] and then [lbfgs] as it is. Every exception that leaves
    [lbfgs] is one of the engine. *)
Theorem evaluate_relays_engine `{Ext : Externals}
    (st : statics) (instance : ObjectiveFunction) (x g : list float)
    (n : Z) (step : float) (w : world) :
  (forall fx g', gradient (plmdca_inst st) x g = inr (fx, g') ->
     _evaluate st instance x g n step w = Returns (fx, g') w)
  /\ (forall e, gradient (plmdca_inst st) x g = inl e ->
        _evaluate st instance x g n step w = Throws (engine_exn e) w
        /\ forall resume,
             drive st instance (Evaluate x g n step resume) w
             = Throws (engine_exn e) w)
  /\ (forall d e w',
        drive st instance d w = Throws e w' -> exists e', e = engine_exn e').
Proof.
  split; [|split].
  - intros fx g' Hg. rewrite evaluate_eq, Hg. reflexivity.
  - intros e Hg. split.
    + rewrite evaluate_eq, Hg. reflexivity.
    + intros resume. simpl. unfold bind. rewrite evaluate_eq, Hg. reflexivity.
  - intros d e w' Hd. pose proof (drive_frame st instance d w) as Hf.
    rewrite Hd in Hf. apply Hf.
Qed.

(** An engine failure crosses the callback: this engine refuses a vector
    holding a NaN, and [_evaluate] ends by throwing. *)
Lemma engine_failure_leaves_callback :
  exists st,
    _evaluate (Ext := Sample.externals true) st ObjectiveFunction_new
      [S754_nan] [Sample.zero] 1 Sample.zero (Sample.boot true)
    = Throws (engine_exn ("non-finite parameter"%string : @engine_error (Sample.externals true)))
        (Sample.boot true).
Proof.
  exists (@Statics (Sample.externals true)
            (Sample.engine_new "msa.fa" 1 1 1 Sample.seqid Sample.lambda Sample.lambda 1)
            0 false).
  reflexivity.
Qed.

(** C7. [freeFieldsAndCouplings] on the null handle changes nothing and
    returns; on the handle of a live block it returns after one release of
    that block, which is live no more, and nothing else changes. *)
Theorem release_contract `{Ext : Externals} (w : world) :
  freeFieldsAndCouplings NULL w = Returns tt w
  /\ forall p b, heap w !! p = Some b ->
       exists w',
         freeFieldsAndCouplings (Some p) w = Returns tt w'
         /\ heap w' = delete p (heap w)
         /\ heap w' !! p = None
         /\ mem_log w' = mem_log w ++ [Released p]
         /\ output w' = output w
         /\ static_vars w' = static_vars w.
Proof.
  split; [reflexivity|].
  intros p b Hp. eexists. split.
  - unfold freeFieldsAndCouplings, delete_array. rewrite Hp. reflexivity.
  - cbn. repeat split. apply lookup_delete_eq.
Qed.

Lemma release_contract_witness :
  exists w1 w2,
    plmdcaBackend (Ext := Sample.externals true) 1 2 "msa.fa" 3
      Sample.seqid Sample.lambda Sample.lambda 10 1 false (Sample.boot true)
    = Returns (Some 1%positive) w1
    /\ freeFieldsAndCouplings (Some 1%positive) w1 = Returns tt w2
    /\ heap w2 = ∅
    /\ mem_log w2 = [Allocated 1%positive; Released 1%positive]
    /\ freeFieldsAndCouplings NULL w2 = Returns tt w2.
Proof.
  pose (w1 := ends_in (plmdcaBackend (Ext := Sample.externals true) 1 2 "msa.fa" 3
                 Sample.seqid Sample.lambda Sample.lambda 10 1 false
                 (Sample.boot true)) (Sample.boot true)).
  destruct (release_contract (Ext := Sample.externals true) w1) as [_ Hlive].
  destruct (Hlive 1%positive (replicate 18 Sample.one) eq_refl)
    as (w2 & Hfree & Hheap & _ & Hlog & _ & _).
  exists w1, w2. split; [reflexivity|]. split; [exact Hfree|].
  split; [rewrite Hheap; reflexivity|]. split; [rewrite Hlog; reflexivity|].
  apply (release_contract (Ext := Sample.externals true) w2).
Defined.

(** C8. The progress callback always returns 0 and leaves blocks, statics
    and the allocation log as they are. When [logging] is set it writes the
    iteration index, then the objective value, the two norms and the step
    size, then an empty line, all to [stderr]; otherwise it writes
    nothing. *)
Theorem progress_only_observes `{Ext : Externals}
    (st : statics) (instance : ObjectiveFunction) (x g : list float)
    (fx xnorm gnorm step : float) (n k ls : Z) (w : world) :
  exists w',
    _progress st instance x g fx xnorm gnorm step n k ls w = Returns 0 w'
    /\ progress st instance x g fx xnorm gnorm step n k ls w = Returns 0 w'
    /\ heap w' = heap w
    /\ static_vars w' = static_vars w
    /\ mem_log w' = mem_log w
    /\ output w' = output w ++
         (if logging st then
            [ Out stderr "Iteration %d:\n" [ArgInt k];
              Out stderr "fx = %f xnorm = %f, gnorm = %f, step = %f\n"
                [ArgFloat fx; ArgFloat xnorm; ArgFloat gnorm; ArgFloat step];
              Out stderr "\n" [] ]
          else []).
Proof.
  eexists. split; [apply progress_eq|]. split; [apply progress_eq|].
  destruct (logging st); cbn; repeat split.
  now rewrite app_nil_r.
Qed.




(** ** Ownership, output and defined behaviour of a call *)

Section Ownership.
Context `{Ext : Externals}.
Implicit Types (w : world) (st : statics) (this instance : ObjectiveFunction).

Lemma emit_all_nil w : emit_all [] w = w.
Proof. destruct w; unfold emit_all; simpl. now rewrite app_nil_r. Qed.

Lemma progress_lines_on_stderr k fx xnorm gnorm step :
  Forall on_stderr (progress_lines k fx xnorm gnorm step).
Proof. repeat constructor. Qed.

Lemma report_lines_on_stderr status fx :
  Forall on_stderr (report_lines status fx).
Proof. repeat constructor. Qed.

(** What [lbfgs] with the callbacks does to the world: it appends lines to
    [stderr], and none of them when [logging] is off. *)
Lemma drive_output st instance d : forall w,
  match drive st instance d w with
  | Returns _ w' | Throws _ w' =>
      exists evs, w' = emit_all evs w /\ Forall on_stderr evs
                  /\ (logging st = false -> evs = [])
  | Undefined => False
  end.
Proof.
  induction d as [r x fx | x g n step resume IH
                 | x g fx xnorm gnorm step n k ls resume IH]; intros w.
  - simpl. exists []. rewrite emit_all_nil. repeat split. constructor.
  - simpl. unfold bind. rewrite evaluate_eq.
    destruct (gradient (plmdca_inst st) x g) as [e | [fx' g']].
    + exists []. rewrite emit_all_nil. repeat split. constructor.
    + apply IH.
  - simpl. unfold bind. rewrite progress_eq.
    destruct (logging st) eqn:Hlog.
    + specialize (IH 0 (emit_all (progress_lines k fx xnorm gnorm step) w)).
      destruct (drive st instance (resume 0) _) as [a w' | e w' |];
        try contradiction;
        destruct IH as (evs & -> & Hall & _);
        exists (progress_lines k fx xnorm gnorm step ++ evs);
        (split; [apply emit_all_app|]);
        (split; [|discriminate]);
        apply Forall_app; (split; [apply progress_lines_on_stderr | exact Hall]).
    + specialize (IH 0 w).
      destruct (drive st instance (resume 0) w) as [a w' | e w' |];
        try contradiction; exact IH.
Qed.

(** [run] once the block is allocated: where it ends, and in which world. *)
Lemma run_world st this N w p b :
  lbfgs_malloc N (heap w) = Some (p, b) ->
  match run st this N w with
  | Returns r w' =>
      snd r = {| m_x := Some p |}
      /\ exists b2 evs,
           length b2 = length b
           /\ w' = World (<[p := b2]> (heap w)) (static_vars w)
                     (output w ++ evs) (mem_log w ++ [Allocated p])
           /\ Forall on_stderr evs
           /\ (logging st = false -> evs = [])
           /\ (logging st = true ->
               exists pre fx, evs = pre ++ report_lines (fst r) fx)
  | Throws e w' =>
      exists e' b1 evs,
        e = engine_exn e'
        /\ length b1 = length b
        /\ w' = World (<[p := b1]> (heap w)) (static_vars w)
                  (output w ++ evs) (mem_log w ++ [Allocated p])
        /\ Forall on_stderr evs
  | Undefined => True
  end.
Proof.
  intros Hm. rewrite (run_allocated st this N w p b Hm).
  destruct (write_block b _) as [b1|] eqn:Hinit; [|exact I].
  pose proof (drive_output st {| m_x := Some p |} (lbfgs N b1 (run_param st))
                (at_lbfgs_entry w p b1)) as Ho.
  pose proof (drive_frame st {| m_x := Some p |} (lbfgs N b1 (run_param st))
                (at_lbfgs_entry w p b1)) as Hf.
  destruct (drive st _ _ _) as [[[status x'] fx] w2 | e w2 |]; [| |exact I].
  - destruct (write_block b1 x') as [b2|] eqn:Hb2; [|exact I].
    destruct Ho as (evs & -> & Hall & Hquiet).
    split; [reflexivity|].
    unfold report. destruct (logging st) eqn:Hlog.
    + exists b2, (evs ++ report_lines status fx). split; [|split; [|split; [|split]]].
      * rewrite (write_block_length _ _ _ Hb2). eapply write_block_length; eassumption.
      * unfold emit_all, set_heap, at_lbfgs_entry. cbn.
        rewrite insert_insert_eq, app_assoc. reflexivity.
      * apply Forall_app. split; [exact Hall | apply report_lines_on_stderr].
      * discriminate.
      * intros _. exists evs, fx. reflexivity.
    + exists b2, []. rewrite (Hquiet eq_refl). split; [|split; [|split; [|split]]].
      * rewrite (write_block_length _ _ _ Hb2). eapply write_block_length; eassumption.
      * unfold emit_all, set_heap, at_lbfgs_entry. cbn.
        rewrite insert_insert_eq, !app_nil_r. reflexivity.
      * constructor.
      * reflexivity.
      * discriminate.
  - destruct Hf as [_ [e' ->]]. destruct Ho as (evs & -> & Hall & _).
    exists e', b1, evs. split; [reflexivity|]. split; [|split].
    + eapply write_block_length; eassumption.
    + reflexivity.
    + exact Hall.
Qed.

End Ownership.

Section Calls.
Context `{Ext : Externals}.
Variables (biomolecule num_site_states : Z) (msa_file : string) (seqs_len : Z)
  (seqid lambda_h lambda_J : float) (max_iteration num_threads : Z)
  (verbose : bool) (w : world).

Local Notation "'the_call'" :=
  (plmdcaBackend biomolecule num_site_states msa_file seqs_len
     seqid lambda_h lambda_J max_iteration num_threads verbose w).
Local Notation "'the_statics'" :=
  (statics_in_effect biomolecule num_site_states msa_file seqs_len
     seqid lambda_h lambda_J max_iteration num_threads verbose w).
Local Notation "'the_count'" := (total_num_params seqs_len num_site_states).

Lemma thread_check_cases :
  (openmp = false /\ 1 < num_threads) \/ (openmp = true \/ num_threads <= 1).
Proof.
  destruct openmp; [right; now left|].
  destruct (Z.le_gt_cases num_threads 1); [right; now right|].
  left. split; [reflexivity | lia].
Qed.

(** Every way a call can end, with the world it ends in. *)
Lemma backend_outcome :
  match the_call with
  | Returns r w' =>
      (openmp = true \/ num_threads <= 1)
      /\ ((r = NULL
           /\ lbfgs_malloc the_count (heap w) = None
           /\ w' = emit_all [allocation_error] (set_statics the_statics w))
          \/ (exists p b b2 evs,
                r = Some p
                /\ lbfgs_malloc the_count (heap w) = Some (p, b)
                /\ length b2 = length b
                /\ w' = after_allocating w the_statics p b2 evs
                /\ Forall on_stderr evs
                /\ (logging the_statics = false -> evs = [])
                /\ (logging the_statics = true ->
                    exists pre status fx, evs = pre ++ report_lines status fx)))
  | Throws e w' =>
      (e = runtime_error "Invalid number of threads"
       /\ openmp = false /\ 1 < num_threads
       /\ w' = emit_all [thread_error] w)
      \/ (exists e' p b b1 evs,
            e = engine_exn e'
            /\ (openmp = true \/ num_threads <= 1)
            /\ lbfgs_malloc the_count (heap w) = Some (p, b)
            /\ length b1 = length b
            /\ w' = after_allocating w the_statics p b1 evs
            /\ Forall on_stderr evs)
  | Undefined => openmp = true \/ num_threads <= 1
  end.
Proof.
  destruct thread_check_cases as [[Homp Hgt] | Hok].
  - rewrite backend_refuses by assumption. left. repeat split; assumption.
  - rewrite backend_passes by assumption. cbv zeta.
    destruct (lbfgs_malloc the_count (heap w)) as [[p b]|] eqn:Hm.
    + pose proof (run_world the_statics ObjectiveFunction_new the_count
                    (set_statics the_statics w) p b Hm) as Hw.
      destruct (run _ _ _ _) as [[status this'] w' | e w' |].
      * destruct Hw as (Hthis & b2 & evs & Hlen & -> & Hall & Hquiet & Hrep).
        cbn in Hthis. subst this'. split; [exact Hok|]. right.
        exists p, b, b2, evs. repeat split; try assumption.
        intros Hlog. destruct (Hrep Hlog) as (pre & fx & ->).
        exists pre, status, fx. reflexivity.
      * destruct Hw as (e' & b1 & evs & -> & Hlen & -> & Hall).
        right. exists e', p, b, b1, evs. repeat split; assumption.
      * exact Hok.
    + rewrite run_null by exact Hm. split; [exact Hok|]. left.
      repeat split.
Qed.

End Calls.

(** ** Further properties of a call *)

(** X1. A buffer returned by [plmdcaBackend] sits at an address that was
    not live before the call, and releasing it with
    [freeFieldsAndCouplings] gives back the heap of before the call: the
    call and the release log one allocation and one release of that
    address, and the release writes nothing and keeps the statics. *)
Theorem release_restores_heap `{Ext : Externals}
    (biomolecule num_site_states : Z) (msa_file : string) (seqs_len : Z)
    (seqid lambda_h lambda_J : float) (max_iteration num_threads : Z)
    (verbose : bool) (w w' : world) (p : addr) :
  plmdcaBackend biomolecule num_site_states msa_file seqs_len
    seqid lambda_h lambda_J max_iteration num_threads verbose w
  = Returns (Some p) w' ->
  heap w !! p = None
  /\ exists w'',
       freeFieldsAndCouplings (Some p) w' = Returns tt w''
       /\ heap w'' = heap w
       /\ mem_log w'' = mem_log w ++ [Allocated p; Released p]
       /\ output w'' = output w'
       /\ static_vars w'' = static_vars w'.
Proof.
  intros Hcall. pose proof (backend_outcome biomolecule num_site_states msa_file seqs_len
                seqid lambda_h lambda_J max_iteration num_threads verbose w) as Ho.
  rewrite Hcall in Ho.
  destruct Ho as [_ [(Hnull & _) | (p0 & b & b2 & evs & Hp & Hm & _ & -> & _)]];
    [discriminate|].
  injection Hp as <-.
  pose proof (lbfgs_malloc_fresh _ _ _ _ Hm) as Hfresh.
  split; [exact Hfresh|].
  eexists. split.
  - unfold freeFieldsAndCouplings, delete_array, after_allocating. cbn [heap].
    rewrite lookup_insert_eq. reflexivity.
  - cbn. repeat split.
    + apply delete_insert_id. exact Hfresh.
    + now rewrite <- app_assoc.
Qed.

Lemma release_restores_heap_witness :
  exists w' w'',
    plmdcaBackend (Ext := Sample.externals true) 1 2 "msa.fa" 3
      Sample.seqid Sample.lambda Sample.lambda 10 1 true (Sample.boot true)
    = Returns (Some 1%positive) w'
    /\ freeFieldsAndCouplings (Some 1%positive) w' = Returns tt w''
    /\ heap w'' = ∅
    /\ mem_log w'' = [Allocated 1%positive; Released 1%positive].
Proof.
  pose (w' := ends_in (plmdcaBackend (Ext := Sample.externals true) 1 2 "msa.fa" 3
                 Sample.seqid Sample.lambda Sample.lambda 10 1 true
                 (Sample.boot true)) (Sample.boot true)).
  destruct (release_restores_heap (Ext := Sample.externals true) 1 2 "msa.fa" 3
              Sample.seqid Sample.lambda Sample.lambda 10 1 true
              (Sample.boot true) w' 1%positive eq_refl)
    as (_ & w'' & Hfree & Hheap & Hlog & _ & _).
  exists w', w''. split; [reflexivity|]. repeat split; assumption.
Defined.

(** X2. Releasing a live buffer and then releasing the same handle again
    is undefined behaviour: the null that [freeFieldsAndCouplings] stores
    is stored in its own local copy of the pointer, not in the caller's. *)
Theorem second_release_undefined `{Ext : Externals}
    (w : world) (p : addr) (b : list float) :
  heap w !! p = Some b ->
  exists w',
    freeFieldsAndCouplings (Some p) w = Returns tt w'
    /\ freeFieldsAndCouplings (Some p) w' = Undefined.
Proof.
  intros Hp. eexists. split.
  - unfold freeFieldsAndCouplings, delete_array. rewrite Hp. reflexivity.
  - unfold freeFieldsAndCouplings, delete_array. cbn [heap log_mem set_heap].
    rewrite lookup_delete_eq. reflexivity.
Qed.

Lemma second_release_undefined_witness :
  exists w' w'',
    plmdcaBackend (Ext := Sample.externals true) 1 2 "msa.fa" 3
      Sample.seqid Sample.lambda Sample.lambda 10 1 false (Sample.boot true)
    = Returns (Some 1%positive) w'
    /\ freeFieldsAndCouplings (Some 1%positive) w' = Returns tt w''
    /\ freeFieldsAndCouplings (Some 1%positive) w'' = Undefined.
Proof.
  pose (w' := ends_in (plmdcaBackend (Ext := Sample.externals true) 1 2 "msa.fa" 3
                 Sample.seqid Sample.lambda Sample.lambda 10 1 false
                 (Sample.boot true)) (Sample.boot true)).
  destruct (second_release_undefined (Ext := Sample.externals true) w' 1%positive
              (replicate 18 Sample.one) eq_refl) as (w'' & H1 & H2).
  exists w', w''. split; [reflexivity|]. split; assumption.
Defined.

(** X3. Once the statics are initialised, a call that ends with an
    exception of the engine has allocated the parameter buffer and neither
    released nor returned it: in the world it leaves, a block of
    [total_num_params] floats is live at an address that was not live
    before, the log shows its allocation and no release, and the statics
    are as they were. *)
Theorem engine_exception_leaks_buffer `{Ext : Externals}
    (biomolecule num_site_states : Z) (msa_file : string) (seqs_len : Z)
    (seqid lambda_h lambda_J : float) (max_iteration num_threads : Z)
    (verbose : bool) (w w' : world) (st : statics) (e : engine_error) :
  static_vars w = Some st ->
  plmdcaBackend biomolecule num_site_states msa_file seqs_len
    seqid lambda_h lambda_J max_iteration num_threads verbose w
  = Throws (engine_exn e) w' ->
  exists p b1,
    heap w !! p = None
    /\ heap w' !! p = Some b1
    /\ Z.of_nat (length b1) = total_num_params seqs_len num_site_states
    /\ mem_log w' = mem_log w ++ [Allocated p]
    /\ static_vars w' = Some st.
Proof.
  intros Hst Hcall.
  pose proof (backend_outcome biomolecule num_site_states msa_file seqs_len
                seqid lambda_h lambda_J max_iteration num_threads verbose w) as Ho.
  rewrite Hcall in Ho.
  destruct Ho as [(Hrt & _) | (e' & p & b & b1 & evs & _ & _ & Hm & Hlen & -> & _)];
    [discriminate|].
  exists p, b1. split; [|split; [|split; [|split]]].
  - eapply lbfgs_malloc_fresh. exact Hm.
  - apply lookup_insert_eq.
  - rewrite Hlen. eapply lbfgs_malloc_length. exact Hm.
  - reflexivity.
  - cbn. unfold statics_in_effect. rewrite Hst. reflexivity.
Qed.

Lemma engine_exception_leaks_buffer_witness :
  exists w' p b1,
    plmdcaBackend (Ext := Faulty.externals) 1 2 "msa.fa" 3
      Sample.seqid Sample.lambda Sample.lambda 10 1 true Faulty.running
    = Throws (engine_exn ("engine failure"%string : @engine_error Faulty.externals)) w'
    /\ heap w' !! p = Some b1
    /\ Z.of_nat (length b1) = 18
    /\ mem_log w' = [Allocated p].
Proof.
  pose (w' := ends_in (plmdcaBackend (Ext := Faulty.externals) 1 2 "msa.fa" 3
                 Sample.seqid Sample.lambda Sample.lambda 10 1 true Faulty.running)
                Faulty.running).
  destruct (engine_exception_leaks_buffer (Ext := Faulty.externals) 1 2 "msa.fa" 3
              Sample.seqid Sample.lambda Sample.lambda 10 1 true Faulty.running w'
              _ ("engine failure"%string : @engine_error Faulty.externals)
              eq_refl eq_refl)
    as (p & b1 & _ & Hheap & Hlen & Hlog & _).
  exists w', p, b1. split; [reflexivity|]. repeat split; assumption.
Defined.

(** X4. When the static [logging] is off, a call that returns a buffer
    writes nothing at all: the world differs from the one before only by
    the new block, the allocation logged and the statics. The status code
    of [lbfgs], which [plmdcaBackend] drops, and the final objective value
    leave no trace. *)
Theorem quiet_run_leaves_no_trace `{Ext : Externals}
    (biomolecule num_site_states : Z) (msa_file : string) (seqs_len : Z)
    (seqid lambda_h lambda_J : float) (max_iteration num_threads : Z)
    (verbose : bool) (w w' : world) (p : addr) :
  plmdcaBackend biomolecule num_site_states msa_file seqs_len
    seqid lambda_h lambda_J max_iteration num_threads verbose w
  = Returns (Some p) w' ->
  logging (statics_in_effect biomolecule num_site_states msa_file seqs_len
         seqid lambda_h lambda_J max_iteration num_threads verbose w) = false ->
  output w' = output w
  /\ mem_log w' = mem_log w ++ [Allocated p]
  /\ static_vars w'
     = Some (statics_in_effect biomolecule num_site_states msa_file seqs_len
         seqid lambda_h lambda_J max_iteration num_threads verbose w)
  /\ exists b2, heap w' = <[p := b2]> (heap w).
Proof.
  intros Hcall Hquiet. pose proof (backend_outcome biomolecule num_site_states msa_file seqs_len
                seqid lambda_h lambda_J max_iteration num_threads verbose w) as Ho.
  rewrite Hcall in Ho.
  destruct Ho as [_ [(Hnull & _) | (p0 & b & b2 & evs & Hp & _ & _ & -> & _ & Hq & _)]];
    [discriminate|].
  injection Hp as <-. rewrite (Hq Hquiet). cbn.
  rewrite app_nil_r. repeat split. exists b2. reflexivity.
Qed.

Lemma quiet_run_leaves_no_trace_witness :
  exists w',
    plmdcaBackend (Ext := Sample.externals true) 1 2 "msa.fa" 3
      Sample.seqid Sample.lambda Sample.lambda 10 1 false (Sample.boot true)
    = Returns (Some 1%positive) w'
    /\ output w' = []
    /\ mem_log w' = [Allocated 1%positive].
Proof.
  pose (w' := ends_in (plmdcaBackend (Ext := Sample.externals true) 1 2 "msa.fa" 3
                 Sample.seqid Sample.lambda Sample.lambda 10 1 false
                 (Sample.boot true)) (Sample.boot true)).
  destruct (quiet_run_leaves_no_trace (Ext := Sample.externals true) 1 2 "msa.fa" 3
              Sample.seqid Sample.lambda Sample.lambda 10 1 false
              (Sample.boot true) w' 1%positive eq_refl eq_refl)
    as (Hout & Hlog & _ & _).
  exists w'. split; [reflexivity|]. split; assumption.
Defined.

(** X5. A call only appends to the output. When it returns a buffer, every
    line it wrote is on [stderr], and with [logging] on the last two are
    the status line and the objective line of [run]; when it returns the
    null handle it wrote the allocation message, on [stdout], and nothing
    else; when it throws, every line it wrote is on [stderr]. *)
Theorem output_appended_by_stream `{Ext : Externals}
    (biomolecule num_site_states : Z) (msa_file : string) (seqs_len : Z)
    (seqid lambda_h lambda_J : float) (max_iteration num_threads : Z)
    (verbose : bool) (w : world) :
  (forall p w',
     plmdcaBackend biomolecule num_site_states msa_file seqs_len
       seqid lambda_h lambda_J max_iteration num_threads verbose w
     = Returns (Some p) w' ->
     exists evs,
       output w' = output w ++ evs
       /\ Forall on_stderr evs
       /\ (logging (statics_in_effect biomolecule num_site_states msa_file seqs_len
         seqid lambda_h lambda_J max_iteration num_threads verbose w) = true ->
           exists pre status fx, evs = pre ++ report_lines status fx))
  /\ (forall w',
        plmdcaBackend biomolecule num_site_states msa_file seqs_len
       seqid lambda_h lambda_J max_iteration num_threads verbose w
        = Returns NULL w' ->
        output w' = output w ++ [allocation_error])
  /\ (forall e w',
        plmdcaBackend biomolecule num_site_states msa_file seqs_len
       seqid lambda_h lambda_J max_iteration num_threads verbose w
        = Throws e w' ->
        exists evs, output w' = output w ++ evs /\ Forall on_stderr evs).
Proof.
  pose proof (backend_outcome biomolecule num_site_states msa_file seqs_len
                seqid lambda_h lambda_J max_iteration num_threads verbose w) as Ho.
  split; [|split].
  - intros p w' Hcall. rewrite Hcall in Ho.
    destruct Ho as [_ [(Hnull & _)
                      | (p0 & b & b2 & evs & _ & _ & _ & -> & Hall & _ & Hrep)]];
      [discriminate|].
    exists evs. repeat split; assumption.
  - intros w' Hcall. rewrite Hcall in Ho.
    destruct Ho as [_ [(_ & _ & ->) | (p0 & b & b2 & evs & Hp & _)]];
      [reflexivity | discriminate].
  - intros e w' Hcall. rewrite Hcall in Ho.
    destruct Ho as [(_ & _ & _ & ->)
                   | (e' & p & b & b1 & evs & _ & _ & _ & _ & -> & Hall)].
    + exists [thread_error]. split; [reflexivity|]. repeat constructor.
    + exists evs. split; [reflexivity | exact Hall].
Qed.

(** X6. A buffer that is live when [plmdcaBackend] is called is live with
    the same contents when the call returns or throws, and the handle
    returned is never the handle of such a buffer: results of earlier
    calls are neither overwritten nor handed out again. *)
Theorem live_buffers_survive_call `{Ext : Externals}
    (biomolecule num_site_states : Z) (msa_file : string) (seqs_len : Z)
    (seqid lambda_h lambda_J : float) (max_iteration num_threads : Z)
    (verbose : bool) (w : world) (q : addr) (c : list float) :
  heap w !! q = Some c ->
  (forall r w',
     plmdcaBackend biomolecule num_site_states msa_file seqs_len
       seqid lambda_h lambda_J max_iteration num_threads verbose w
     = Returns r w' ->
     heap w' !! q = Some c /\ r <> Some q)
  /\ (forall e w',
        plmdcaBackend biomolecule num_site_states msa_file seqs_len
       seqid lambda_h lambda_J max_iteration num_threads verbose w
        = Throws e w' ->
        heap w' !! q = Some c).
Proof.
  intros Hq. pose proof (backend_outcome biomolecule num_site_states msa_file seqs_len
                seqid lambda_h lambda_J max_iteration num_threads verbose w) as Ho.
  split.
  - intros r w' Hcall. rewrite Hcall in Ho.
    destruct Ho as [_ [(-> & _ & ->)
                      | (p & b & b2 & evs & -> & Hm & _ & -> & _)]].
    + split; [exact Hq | discriminate].
    + pose proof (lbfgs_malloc_fresh _ _ _ _ Hm) as Hfresh.
      assert (p <> q) by (intros ->; congruence).
      split; [|congruence].
      unfold after_allocating. cbn [heap].
      rewrite lookup_insert_ne by assumption. exact Hq.
  - intros e w' Hcall. rewrite Hcall in Ho.
    destruct Ho as [(_ & _ & _ & ->)
                   | (e' & p & b & b1 & evs & _ & _ & Hm & _ & -> & _)].
    + exact Hq.
    + pose proof (lbfgs_malloc_fresh _ _ _ _ Hm) as Hfresh.
      assert (p <> q) by (intros ->; congruence).
      unfold after_allocating. cbn [heap].
      rewrite lookup_insert_ne by assumption. exact Hq.
Qed.

Lemma live_buffers_survive_call_witness :
  exists w1 w2,
    plmdcaBackend (Ext := Sample.externals true) 1 2 "msa.fa" 3
      Sample.seqid Sample.lambda Sample.lambda 10 1 false (Sample.boot true)
    = Returns (Some 1%positive) w1
    /\ plmdcaBackend (Ext := Sample.externals true) 1 2 "msa.fa" 3
         Sample.seqid Sample.lambda Sample.lambda 10 1 false w1
       = Returns (Some 2%positive) w2
    /\ heap w2 !! 1%positive = Some (replicate 18 Sample.one)
    /\ Some 2%positive <> Some 1%positive.
Proof.
  pose (w1 := ends_in (plmdcaBackend (Ext := Sample.externals true) 1 2 "msa.fa" 3
                 Sample.seqid Sample.lambda Sample.lambda 10 1 false
                 (Sample.boot true)) (Sample.boot true)).
  pose (w2 := ends_in (plmdcaBackend (Ext := Sample.externals true) 1 2 "msa.fa" 3
                 Sample.seqid Sample.lambda Sample.lambda 10 1 false w1) w1).
  destruct (live_buffers_survive_call (Ext := Sample.externals true) 1 2 "msa.fa" 3
              Sample.seqid Sample.lambda Sample.lambda 10 1 false w1
              1%positive (replicate 18 Sample.one) eq_refl) as [Hret _].
  destruct (Hret (Some 2%positive) w2 eq_refl) as [Hkept Hfresh].
  exists w1, w2. split; [reflexivity|]. split; [reflexivity|].
  split; assumption.
Defined.

(** ** Further properties of the parameter count *)

Lemma param_count_mono L L' Q Q' :
  0 <= L <= L' -> 0 <= Q <= Q' -> param_count L Q <= param_count L' Q'.
Proof.
  intros HL HQ. unfold param_count.
  assert (0 <= L * (L - 1)) by nia.
  assert (L * (L - 1) <= L' * (L' - 1)).
  { assert (0 <= (L' - L) * (L' + L - 1))
      by (destruct (Z.eq_dec L L'); [subst; lia | apply Z.mul_nonneg_nonneg; lia]).
    lia. }
  assert (0 <= L * (L - 1) / 2) by (apply Z.div_pos; lia).
  assert (L * (L - 1) / 2 <= L' * (L' - 1) / 2) by (apply Z.div_le_mono; lia).
  assert (0 <= Q ^ 2) by nia.
  assert (Q ^ 2 <= Q' ^ 2) by (rewrite !Z.pow_2_r; apply Z.mul_le_mono_nonneg; lia).
  assert (L * Q <= L' * Q') by (apply Z.mul_le_mono_nonneg; lia).
  assert (L * (L - 1) / 2 * Q ^ 2 <= L' * (L' - 1) / 2 * Q' ^ 2)
    by (apply Z.mul_le_mono_nonneg; lia).
  lia.
Qed.

(** X7. With no site, with one site, or with no state, line 47 gives the
    count one expects, 0, [Q] and 0: for [seqs_len = 0] the factor
    [seqs_len - 1] wraps to 2^32 - 1 and is multiplied away. *)
Theorem total_num_params_degenerate (L Q : Z) :
  Int.is_uint L -> Int.is_ushort Q ->
  total_num_params 0 Q = 0
  /\ total_num_params 1 Q = Q
  /\ total_num_params L 0 = 0
  /\ Int.usub 0 1 = Int.modulus - 1.
Proof.
  intros [HL0 HL] [HQ0 HQ]. change (2 ^ 16) with 65536 in HQ.
  assert (P0 : param_count 0 Q = 0)
    by (unfold param_count; change (0 * (0 - 1) / 2) with 0; lia).
  assert (P1 : param_count 1 Q = Q)
    by (unfold param_count; change (1 * (1 - 1) / 2) with 0; lia).
  assert (PQ : param_count L 0 = 0)
    by (unfold param_count; change (0 ^ 2) with 0; lia).
  assert (Hmax : Int.max_signed = 2147483647) by reflexivity.
  split; [|split; [|split]].
  - rewrite total_num_params_fits; rewrite ?P0; lia.
  - rewrite total_num_params_fits; rewrite ?P1; lia.
  - rewrite total_num_params_fits; rewrite ?PQ; lia.
  - reflexivity.
Qed.

Lemma total_num_params_degenerate_witness :
  total_num_params 0 21 = 0 /\ total_num_params 1 21 = 21
  /\ total_num_params 500 0 = 0.
Proof.
  destruct (total_num_params_degenerate 500 21) as (H0 & H1 & HQ & _).
  - unfold Int.is_uint, Int.modulus. lia.
  - unfold Int.is_ushort. lia.
  - repeat split; assumption.
Defined.

(** X8. Below a shape whose documented count fits in an [int], line 47 is
    exact and grows with the shape: if [L <= L'], [Q <= Q'] and the count
    of [(L', Q')] fits, the value computed for [(L, Q)] is the documented
    count, is not negative and is at most the value computed for
    [(L', Q')]. *)
Theorem count_exact_below_bound (L L' Q Q' : Z) :
  0 <= L <= L' -> 0 <= Q <= Q' ->
  param_count L' Q' <= Int.max_signed ->
  total_num_params L Q = param_count L Q
  /\ 0 <= total_num_params L Q <= total_num_params L' Q'.
Proof.
  intros HL HQ Hfit.
  pose proof (param_count_mono L L' Q Q' HL HQ) as Hmono.
  pose proof (param_count_mono 0 L 0 Q ltac:(lia) ltac:(lia)) as Hpos.
  change (param_count 0 0) with 0 in Hpos.
  rewrite (total_num_params_fits L Q) by lia.
  rewrite (total_num_params_fits L' Q') by lia.
  repeat split; lia.
Qed.

Lemma count_exact_below_bound_witness :
  param_count 3121 21 <= Int.max_signed
  /\ total_num_params 1000 21 = param_count 1000 21
  /\ 0 <= total_num_params 1000 21 <= total_num_params 3121 21.
Proof.
  assert (Hfit : param_count 3121 21 <= Int.max_signed)
    by (vm_compute; discriminate).
  split; [exact Hfit|].
  apply (count_exact_below_bound 1000 3121 21 21); [lia | lia | exact Hfit].
Defined.

(** ** Further properties of a call, by its arguments *)

(** X9. When the value of line 47 is negative (a count between 2^31 and
    2^32 read as an [int]), no block can be had for it: the call writes
    the allocation message, returns the null handle and leaves heap and
    allocation log as they were. *)
Theorem negative_count_returns_null `{Ext : Externals}
    (biomolecule num_site_states : Z) (msa_file : string) (seqs_len : Z)
    (seqid lambda_h lambda_J : float) (max_iteration num_threads : Z)
    (verbose : bool) (w : world) :
  openmp = true \/ num_threads <= 1 ->
  total_num_params seqs_len num_site_states < 0 ->
  exists w',
    plmdcaBackend biomolecule num_site_states msa_file seqs_len
    seqid lambda_h lambda_J max_iteration num_threads verbose w
    = Returns NULL w'
    /\ output w' = output w ++ [allocation_error]
    /\ heap w' = heap w
    /\ mem_log w' = mem_log w.
Proof.
  intros Hok Hneg.
  assert (Hm : lbfgs_malloc (total_num_params seqs_len num_site_states)
                 (heap w) = None).
  { destruct (lbfgs_malloc _ (heap w)) as [[p b]|] eqn:Hm; [|reflexivity].
    apply lbfgs_malloc_length in Hm. lia. }
  eexists. split.
  - rewrite backend_passes by assumption. cbv zeta.
    rewrite run_null by exact Hm. reflexivity.
  - repeat split.
Qed.

Lemma negative_count_returns_null_witness :
  total_num_params 65536 1 = -2147450880
  /\ exists w',
       plmdcaBackend (Ext := Sample.externals true) 1 1 "msa.fa" 65536
         Sample.seqid Sample.lambda Sample.lambda 10 1 false (Sample.boot true)
       = Returns NULL w'
       /\ output w' = [allocation_error]
       /\ heap w' = ∅.
Proof.
  split; [reflexivity|].
  destruct (negative_count_returns_null (Ext := Sample.externals true)
              1 1 "msa.fa" 65536 Sample.seqid Sample.lambda Sample.lambda 10 1
              false (Sample.boot true) (or_introl eq_refl) eq_refl)
    as (w' & Hcall & Hout & Hheap & _).
  exists w'. repeat split; assumption.
Defined.

(** X11. The statics are initialised before the block is asked for: a
    call that finds them uninitialised and then fails to allocate returns
    the null handle and still leaves the engine built from its arguments,
    its [max_iteration] as the cap and its [verbose] as [logging], for
    every later call. *)
Theorem failed_allocation_fixes_statics `{Ext : Externals}
    (biomolecule num_site_states : Z) (msa_file : string) (seqs_len : Z)
    (seqid lambda_h lambda_J : float) (max_iteration num_threads : Z)
    (verbose : bool) (w : world) :
  openmp = true \/ num_threads <= 1 ->
  static_vars w = None ->
  lbfgs_malloc (total_num_params seqs_len num_site_states) (heap w) = None ->
  exists w',
    plmdcaBackend biomolecule num_site_states msa_file seqs_len
    seqid lambda_h lambda_J max_iteration num_threads verbose w
    = Returns NULL w'
    /\ static_vars w'
       = Some (Statics
                 (PlmDCA_new msa_file biomolecule seqs_len num_site_states
                    seqid lambda_h lambda_J num_threads)
                 (Int.to_int max_iteration) verbose).
Proof.
  intros Hok Hnone Hm. eexists. split.
  - rewrite backend_passes by assumption. cbv zeta.
    rewrite run_null by exact Hm. reflexivity.
  - cbn. unfold statics_in_effect. rewrite Hnone. reflexivity.
Qed.

Lemma failed_allocation_fixes_statics_witness :
  exists w1 w2,
    plmdcaBackend (Ext := Sample.externals true) 1 21 "big.fa" 100
      Sample.seqid Sample.lambda Sample.lambda 0 1 false (Sample.boot true)
    = Returns NULL w1
    /\ static_vars w1
       = Some (@Statics (Sample.externals true)
                 (Sample.engine_new "big.fa" 1 100 21 Sample.seqid
                    Sample.lambda Sample.lambda 1) 0 false)
    /\ plmdcaBackend (Ext := Sample.externals true) 1 21 "big.fa" 100
         Sample.seqid Sample.lambda Sample.lambda 10 1 true w1
       = Returns NULL w2
    /\ output w2 = [allocation_error; allocation_error].
Proof.
  destruct (failed_allocation_fixes_statics (Ext := Sample.externals true)
              1 21 "big.fa" 100 Sample.seqid Sample.lambda Sample.lambda 0 1 false
              (Sample.boot true) (or_introl eq_refl) eq_refl eq_refl)
    as (w1 & Hcall & Hst).
  exists w1,
    (ends_in (plmdcaBackend (Ext := Sample.externals true) 1 21 "big.fa" 100
                Sample.seqid Sample.lambda Sample.lambda 10 1 true
                (ends_in (plmdcaBackend (Ext := Sample.externals true) 1 21 "big.fa"
                            100 Sample.seqid Sample.lambda Sample.lambda 0 1 false
                            (Sample.boot true)) (Sample.boot true)))
       (Sample.boot true)).
  split; [exact Hcall|]. split; [exact Hst|].
  assert (Hw1 : w1 = ends_in (plmdcaBackend (Ext := Sample.externals true) 1 21
                        "big.fa" 100 Sample.seqid Sample.lambda Sample.lambda 0 1
                        false (Sample.boot true)) (Sample.boot true))
    by (rewrite Hcall; reflexivity).
  rewrite Hw1. split; reflexivity.
Defined.

(** X12. The block is sized by the arguments of the call, and filled by
    the engine in the statics, which a later call does not rebuild: when
    that engine writes more floats than the block holds, as one built by
    an earlier call for a larger alignment may, the call runs past the end
    of the block, which is undefined behaviour. *)
Theorem engine_overruns_smaller_block `{Ext : Externals}
    (biomolecule num_site_states : Z) (msa_file : string) (seqs_len : Z)
    (seqid lambda_h lambda_J : float) (max_iteration num_threads : Z)
    (verbose : bool) (w : world) (st : statics) (p : addr) (b : list float) :
  openmp = true \/ num_threads <= 1 ->
  st = statics_in_effect biomolecule num_site_states msa_file seqs_len
         seqid lambda_h lambda_J max_iteration num_threads verbose w ->
  lbfgs_malloc (total_num_params seqs_len num_site_states) (heap w) = Some (p, b) ->
  (length b < length (initFieldsAndCouplings (plmdca_inst st) b))%nat ->
  plmdcaBackend biomolecule num_site_states msa_file seqs_len
    seqid lambda_h lambda_J max_iteration num_threads verbose w
  = Undefined.
Proof.
  intros Hok -> Hm Hover.
  rewrite backend_passes by assumption. cbv zeta.
  rewrite (run_allocated _ _ _ (set_statics _ w) p b Hm).
  unfold write_block. case_decide; [lia | reflexivity].
Qed.

Lemma engine_overruns_smaller_block_witness :
  exists w1,
    plmdcaBackend (Ext := Sample.externals true) 1 2 "msa.fa" 3
      Sample.seqid Sample.lambda Sample.lambda 10 1 false (Sample.boot true)
    = Returns (Some 1%positive) w1
    /\ total_num_params 3 2 = 18 /\ total_num_params 2 2 = 8
    /\ plmdcaBackend (Ext := Sample.externals true) 1 2 "short.fa" 2
         Sample.seqid Sample.lambda Sample.lambda 10 1 false w1
       = Undefined.
Proof.
  pose (w1 := ends_in (plmdcaBackend (Ext := Sample.externals true) 1 2 "msa.fa" 3
                 Sample.seqid Sample.lambda Sample.lambda 10 1 false
                 (Sample.boot true)) (Sample.boot true)).
  exists w1. split; [reflexivity|]. split; [reflexivity|]. split; [reflexivity|].
  apply (engine_overruns_smaller_block (Ext := Sample.externals true)
           1 2 "short.fa" 2 Sample.seqid Sample.lambda Sample.lambda 10 1 false
           w1 _ 2%positive (replicate 8 Sample.zero)
           (or_introl eq_refl) eq_refl eq_refl).
  change (8 < 18)%nat. lia.
Defined.

(** X13. The handle is the only thing a caller gets back, and it tells
    exactly one thing: a call that returns gives the null handle if and
    only if [lbfgs_malloc] failed; the status code of [lbfgs] has no part
    in it. *)
Theorem null_iff_allocation_failed `{Ext : Externals}
    (biomolecule num_site_states : Z) (msa_file : string) (seqs_len : Z)
    (seqid lambda_h lambda_J : float) (max_iteration num_threads : Z)
    (verbose : bool) (w w' : world) (r : ptr) :
  plmdcaBackend biomolecule num_site_states msa_file seqs_len
    seqid lambda_h lambda_J max_iteration num_threads verbose w
  = Returns r w' ->
  (r = NULL <->
   lbfgs_malloc (total_num_params seqs_len num_site_states) (heap w) = None).
Proof.
  intros Hcall. pose proof (backend_outcome biomolecule num_site_states msa_file seqs_len
                seqid lambda_h lambda_J max_iteration num_threads verbose w) as Ho.
  rewrite Hcall in Ho.
  destruct Ho as [_ [(-> & Hm & _) | (p & b & b2 & evs & -> & Hm & _)]].
  - split; intros _; [exact Hm | reflexivity].
  - split; intros H; [discriminate | congruence].
Qed.

Lemma null_iff_allocation_failed_witness :
  exists w',
    plmdcaBackend (Ext := Sample.externals true) 1 21 "big.fa" 100
      Sample.seqid Sample.lambda Sample.lambda 10 1 false (Sample.boot true)
    = Returns NULL w'
    /\ @lbfgs_malloc (Sample.externals true) (total_num_params 100 21) ∅
       = None.
Proof.
  pose (w' := ends_in (plmdcaBackend (Ext := Sample.externals true) 1 21 "big.fa"
                 100 Sample.seqid Sample.lambda Sample.lambda 10 1 false
                 (Sample.boot true)) (Sample.boot true)).
  exists w'. split; [reflexivity|].
  apply (null_iff_allocation_failed (Ext := Sample.externals true) 1 21 "big.fa"
           100 Sample.seqid Sample.lambda Sample.lambda 10 1 false
           (Sample.boot true) w' NULL eq_refl).
  reflexivity.
Defined.
